(** * GDP dashboard ([streamlit_app.py]): embedding and verified properties

    The application has two views.  The GDP view reads a wide World Bank table,
    melts it into long records ([get_gdp_data]), filters the records by year
    range and country selection and shows one growth metric per selected
    country ([render_gdp_dashboard]).  The schedule view reads a static HTML
    file ([get_schedule_html]) and wraps it in a base64 data URL
    ([_build_preview_data_url]).

    The first part of this file is the embedding: each Python function becomes
    a Rocq function with the same name, the library calls it makes (pandas
    [melt], [to_numeric], boolean-mask selection, float formatting, UTF-8,
    base64, [Path.read_text]) are written out next to it, exceptions are a
    [result] type, and the two files live in an explicit file system.  The
    second part states and proves the properties. *)

From Stdlib Require Import ZArith NArith String Ascii Bool Lia Floats.
From Stdlib Require Import DecimalString DecimalN DecimalZ List Permutation.
From Stdlib.Strings Require Byte.
Import ListNotations.

Open Scope string_scope.
Open Scope list_scope.

(* ================================================================== *)
(** * Part I: the embedding                                            *)
(* ================================================================== *)

(** ** Python values shared by the whole program *)

Module Py.

(** The exceptions the modelled code can raise. *)
Inductive exception : Type :=
| KeyError (label : string)
| ValueError
| TypeError
| FileNotFoundError
| UnicodeEncodeError
| UnicodeDecodeError.

(** A Python call either returns or raises. *)
Inductive result (A : Type) : Type :=
| Ok (a : A)
| Raise (e : exception).
Arguments Ok {A} a.
Arguments Raise {A} e.

Definition bind {A B : Type} (r : result A) (k : A -> result B) : result B :=
  match r with
  | Ok a => k a
  | Raise e => Raise e
  end.

(** [mapM f xs]: apply [f] from left to right, stopping at the first raise. *)
Fixpoint mapM {A B : Type} (f : A -> result B) (xs : list A) : result (list B) :=
  match xs with
  | [] => Ok []
  | x :: rest =>
      bind (f x) (fun y => bind (mapM f rest) (fun ys => Ok (y :: ys)))
  end.



End Py.

Declare Scope py_scope.
Notation "x <- r ;; k" := (Py.bind r (fun x => k))
  (at level 61, r at next level, right associativity) : py_scope.
Open Scope py_scope.

(** ** Float formatting: ['{x:,.Nf}'] on a binary64 value

    [float.__format__] with presentation type [f] prints the exact binary
    value rounded to [prec] decimals, ties going to the even digit, then
    inserts a comma between groups of three integer digits.  [nan] and
    [inf] print as words and take no grouping.  Floats are Rocq's primitive
    binary64 numbers, so [/] below is the IEEE 754 division numpy performs. *)

Module PyFloat.

(** The divisor [1_000_000_000]. *)
Definition billion : float := 1000000000%float.

Definition decimal (n : N) : string := NilZero.string_of_uint (N.to_uint n).

(** Nearest integer to [num / den], ties to even. *)
Definition round_half_even (num den : N) : N :=
  let q := (num / den)%N in
  let r := (num mod den)%N in
  match (2 * r ?= den)%N with
  | Lt => q
  | Gt => (q + 1)%N
  | Eq => if N.even q then q else (q + 1)%N
  end.

(** [m * 2^e * 10^prec] rounded to an integer. *)
Definition scaled_integer (m : positive) (e : Z) (prec : nat) : N :=
  let p10 := (10 ^ N.of_nat prec)%N in
  match e with
  | Zneg k => round_half_even (Npos m * p10) (2 ^ Npos k)
  | _ => (Npos m * 2 ^ Z.to_N e * p10)%N
  end.

Fixpoint zeros (k : nat) : string :=
  match k with
  | O => ""
  | S k' => String "0" (zeros k')
  end.

Definition zero_pad (width : nat) (s : string) : string :=
  zeros (width - String.length s) ++ s.

(** A comma after every digit that is followed by a positive multiple of
    three digits. *)
Fixpoint group_thousands (digits : string) : string :=
  match digits with
  | EmptyString => EmptyString
  | String d rest =>
      let n := String.length rest in
      if (0 <? n)%nat && (n mod 3 =? 0)%nat
      then String d (String "," (group_thousands rest))
      else String d (group_thousands rest)
  end.

(** The digits of [q / 10^prec]: integer part, then the point and [prec]
    decimals when [prec] is positive. *)
Definition fixed_digits (grouping : bool) (prec : nat) (q : N) : string :=
  let ds := zero_pad (S prec) (decimal q) in
  let n := (String.length ds - prec)%nat in
  let int_part := substring 0 n ds in
  let frac_part := substring n prec ds in
  (if grouping then group_thousands int_part else int_part)
  ++ match prec with
     | O => ""
     | S _ => "." ++ frac_part
     end.

Definition sign_prefix (negative : bool) : string :=
  if negative then "-" else "".

(** [format(x, ',.{prec}f')] when [grouping], [format(x, '.{prec}f')]
    otherwise. *)
Definition format_f (grouping : bool) (prec : nat) (x : float) : string :=
  match Prim2SF x with
  | S754_nan => "nan"
  | S754_infinity s => sign_prefix s ++ "inf"
  | S754_zero s => sign_prefix s ++ fixed_digits grouping prec 0
  | S754_finite s m e =>
      sign_prefix s ++ fixed_digits grouping prec (scaled_integer m e prec)
  end.

End PyFloat.

(** ** pandas: frames, [melt], [to_numeric] *)

Module Pandas.
Import Py.

(** What a cell read from the CSV can hold: text, or a float64 number
    ([nan] for an empty cell). *)
Inductive Cell : Type :=
| Text (s : string)
| Number (x : float).









End Pandas.

(** ** The GDP loader *)

Module Gdp.
Import Py Pandas.

(** One row of the long table: columns ['Country Code'], ['Year'], ['GDP']. *)
Record LongRecord : Type := mkLong {
  Country_Code : Cell;
  Year : Z;
  GDP : Cell
}.





End Gdp.

(** ** The dashboard: filtering and the per-country growth metric *)

Module Dashboard.
Import Py Pandas Gdp PyFloat.

(** [delta_color] of [st.metric]. *)
Inductive DeltaColor : Type := normal | off.

(** One [st.metric(label=..., value=..., delta=..., delta_color=...)] call. *)
Record Metric : Type := mkMetric {
  label : string;
  value : string;
  delta : string;
  delta_color : DeltaColor
}.

(** [series.isin(values)] on one cell; the selection holds strings. *)
Definition isin (c : Cell) (values : list string) : bool :=
  match c with
  | Text s => existsb (String.eqb s) values
  | Number _ => false
  end.

(** [cell == country] for a string [country]. *)
Definition cell_eq (c : Cell) (country : string) : bool :=
  match c with
  | Text s => String.eqb s country
  | Number _ => false
  end.

(** The mask of [filtered_gdp_df], for one row. *)
Definition in_selection (selected_countries : list string) (from_year to_year : Z)
  (r : LongRecord) : bool :=
  isin (Country_Code r) selected_countries
  && (Year r <=? to_year)%Z
  && (from_year <=? Year r)%Z.

(** [gdp_df[mask]] keeps the rows whose mask entry is true, in order. *)
Definition filtered_gdp_df (gdp_df : list LongRecord)
  (selected_countries : list string) (from_year to_year : Z) : list LongRecord :=
  filter (in_selection selected_countries from_year to_year) gdp_df.

(** [gdp_df[gdp_df['Year'] == year]]. *)
Definition at_year (gdp_df : list LongRecord) (year : Z) : list LongRecord :=
  filter (fun r => (Year r =? year)%Z) gdp_df.

(** [frame[frame['Country Code'] == country]['GDP']]. *)
Definition gdp_series (frame : list LongRecord) (country : string) : list Cell :=
  map GDP (filter (fun r => cell_eq (Country_Code r) country) frame).

(** [cell / 1_000_000_000]: float64 division for a number, [TypeError]
    for text. *)
Definition truediv (c : Cell) (d : float) : result float :=
  match c with
  | Number x => Ok (x / d)%float
  | Text _ => Raise TypeError
  end.

(** The two arms of [if math.isnan(first_gdp) or math.isnan(last_gdp)]. *)
Inductive GrowthBranch : Type :=
| NaNBranch
| DivisionBranch (dividend divisor : float).

Definition growth_branch (first_gdp last_gdp : float) : GrowthBranch :=
  if is_nan first_gdp || is_nan last_gdp
  then NaNBranch
  else DivisionBranch last_gdp first_gdp.

(** [growth] and [delta_color] as each arm assigns them.  The division
    is float64 division: a zero divisor gives [inf] or [nan], not an
    exception. *)
Definition growth_of (b : GrowthBranch) : string * DeltaColor :=
  match b with
  | NaNBranch => ("n/a", off)
  | DivisionBranch last_gdp first_gdp =>
      ((format_f true 2 (last_gdp / first_gdp)%float ++ "x")%string, normal)
  end.

(** The body of the loop over [selected_countries], from the two series. *)
Definition country_metric (country : string)
  (first_gdp_series last_gdp_series : list Cell) : result Metric :=
  match first_gdp_series, last_gdp_series with
  | first :: _, last :: _ =>
      first_gdp <- truediv first billion ;;
      last_gdp <- truediv last billion ;;
      let '(growth, color) := growth_of (growth_branch first_gdp last_gdp) in
      Ok (mkMetric (country ++ " GDP")%string
            (format_f true 0 last_gdp ++ "B")%string growth color)
  | _, _ =>
      Ok (mkMetric (country ++ " GDP")%string "Data unavailable" "n/a" off)
  end.

(** The metric of one country, from the whole frame. *)
Definition metric_for (gdp_df : list LongRecord) (from_year to_year : Z)
  (country : string) : result Metric :=
  let first_year := at_year gdp_df from_year in
  let last_year := at_year gdp_df to_year in
  country_metric country (gdp_series first_year country)
    (gdp_series last_year country).

(** The loop [for i, country in enumerate(selected_countries)]: the
    metrics shown, each with the index [i % 4] of its column, and the
    exception that stopped the loop, if one did. *)
Fixpoint render_metrics (i : nat) (gdp_df : list LongRecord)
  (from_year to_year : Z) (selected_countries : list string)
  : list (nat * Metric) * option exception :=
  match selected_countries with
  | [] => ([], None)
  | country :: rest =>
      match metric_for gdp_df from_year to_year country with
      | Raise e => ([], Some e)
      | Ok m =>
          let '(shown, stop) :=
            render_metrics (S i) gdp_df from_year to_year rest in
          ((i mod 4, m) :: shown, stop)
      end
  end.

End Dashboard.

(** ** Text and bytes: UTF-8, ASCII, universal newlines

    A Python [str] is its sequence of code points, a [bytes] object a list
    of bytes.  Code points are at most [0x10FFFF]; a [str] may hold
    surrogates ([0xD800..0xDFFF]), which UTF-8 cannot encode. *)

Module Text.
Import Py.

Definition byte : Type := Byte.byte.
Definition text : Type := list N.

Definition byte_of_N (n : N) : byte :=
  match Byte.of_N n with
  | Some b => b
  | None => Byte.x00
  end.

(** A string literal of the source, as code points. *)
Definition text_of_string (s : string) : text :=
  map N_of_ascii (list_ascii_of_string s).

Definition is_surrogate (c : N) : bool := (55296 <=? c)%N && (c <=? 57343)%N.

(** A Unicode scalar value: a code point that is not a surrogate. *)
Definition scalar_value (c : N) : Prop :=
  (c < 55296)%N \/ (57343 < c /\ c <= 1114111)%N.

(** The UTF-8 bytes of one code point. *)
Definition utf8_encode_char (c : N) : result (list byte) :=
  if (c <? 128)%N then Ok [byte_of_N c]
  else if (c <? 2048)%N then
    Ok [byte_of_N (192 + c / 64); byte_of_N (128 + c mod 64)]
  else if (c <? 65536)%N then
    if is_surrogate c then Raise UnicodeEncodeError
    else Ok [byte_of_N (224 + c / 4096);
             byte_of_N (128 + (c / 64) mod 64);
             byte_of_N (128 + c mod 64)]
  else if (c <? 1114112)%N then
    Ok [byte_of_N (240 + c / 262144);
        byte_of_N (128 + (c / 4096) mod 64);
        byte_of_N (128 + (c / 64) mod 64);
        byte_of_N (128 + c mod 64)]
  else Raise UnicodeEncodeError.

(** [s.encode('utf-8')]. *)
Fixpoint utf8_encode (s : text) : result (list byte) :=
  match s with
  | [] => Ok []
  | c :: rest =>
      bs <- utf8_encode_char c ;;
      tail <- utf8_encode rest ;;
      Ok (bs ++ tail)
  end.

(** The payload of a continuation byte [10xxxxxx]. *)
Definition continuation (b : byte) : option N :=
  let n := Byte.to_N b in
  if (128 <=? n)%N && (n <? 192)%N then Some (n - 128)%N else None.

(** [b.decode('utf-8')]: strict UTF-8, so an overlong form, a surrogate, a
    value above [0x10FFFF], a stray continuation byte or a truncated
    sequence raises. *)
Fixpoint utf8_decode (bs : list byte) : result text :=
  match bs with
  | [] => Ok []
  | b0 :: rest =>
      let n0 := Byte.to_N b0 in
      if (n0 <? 128)%N then
        tail <- utf8_decode rest ;; Ok (n0 :: tail)
      else if (n0 <? 192)%N then Raise UnicodeDecodeError
      else if (n0 <? 224)%N then
        match rest with
        | b1 :: rest1 =>
            match continuation b1 with
            | Some n1 =>
                let c := ((n0 - 192) * 64 + n1)%N in
                if (c <? 128)%N then Raise UnicodeDecodeError
                else tail <- utf8_decode rest1 ;; Ok (c :: tail)
            | None => Raise UnicodeDecodeError
            end
        | _ => Raise UnicodeDecodeError
        end
      else if (n0 <? 240)%N then
        match rest with
        | b1 :: b2 :: rest2 =>
            match continuation b1, continuation b2 with
            | Some n1, Some n2 =>
                let c := ((n0 - 224) * 4096 + n1 * 64 + n2)%N in
                if (c <? 2048)%N || is_surrogate c then Raise UnicodeDecodeError
                else tail <- utf8_decode rest2 ;; Ok (c :: tail)
            | _, _ => Raise UnicodeDecodeError
            end
        | _ => Raise UnicodeDecodeError
        end
      else if (n0 <? 248)%N then
        match rest with
        | b1 :: b2 :: b3 :: rest3 =>
            match continuation b1, continuation b2, continuation b3 with
            | Some n1, Some n2, Some n3 =>
                let c := ((n0 - 240) * 262144 + n1 * 4096 + n2 * 64 + n3)%N in
                if (c <? 65536)%N || (1114111 <? c)%N
                then Raise UnicodeDecodeError
                else tail <- utf8_decode rest3 ;; Ok (c :: tail)
            | _, _, _ => Raise UnicodeDecodeError
            end
        | _ => Raise UnicodeDecodeError
        end
      else Raise UnicodeDecodeError
  end.

(** [b.decode('ascii')]. *)
Definition ascii_decode (bs : list byte) : result text :=
  mapM (fun b => let n := Byte.to_N b in
                 if (n <? 128)%N then Ok n else Raise UnicodeDecodeError) bs.

(** [s.encode('ascii')]. *)
Definition ascii_encode (s : text) : result (list byte) :=
  mapM (fun c => if (c <? 128)%N then Ok (byte_of_N c)
                 else Raise UnicodeEncodeError) s.

(** Text-mode reading with [newline=None]: ['\r\n'] and a lone ['\r'] both
    become ['\n']. *)
Fixpoint universal_newlines (s : text) : text :=
  match s with
  | [] => []
  | c :: rest =>
      if (c =? 13)%N then
        match rest with
        | d :: rest' =>
            if (d =? 10)%N then 10%N :: universal_newlines rest'
            else 10%N :: universal_newlines rest
        | [] => [10%N]
        end
      else c :: universal_newlines rest
  end.

End Text.

(** ** base64 *)

Module Base64.
Import Py Text.

(** The character of a six-bit value in the alphabet [A-Za-z0-9+/]. *)
Definition b64_char (v : N) : byte :=
  if (v <? 26)%N then byte_of_N (65 + v)
  else if (v <? 52)%N then byte_of_N (71 + v)
  else if (v <? 62)%N then byte_of_N (v - 4)
  else if (v =? 62)%N then byte_of_N 43
  else byte_of_N 47.

(** The six-bit value of an alphabet character. *)
Definition b64_value (b : byte) : option N :=
  let n := Byte.to_N b in
  if (65 <=? n)%N && (n <=? 90)%N then Some (n - 65)%N
  else if (97 <=? n)%N && (n <=? 122)%N then Some (n - 71)%N
  else if (48 <=? n)%N && (n <=? 57)%N then Some (n + 4)%N
  else if (n =? 43)%N then Some 62%N
  else if (n =? 47)%N then Some 63%N
  else None.

(** The padding character [=]. *)
Definition pad : byte := byte_of_N 61.

(** [base64.b64encode]: three bytes become four characters; a last group
    of one or two bytes is padded with [=]. *)
Fixpoint b64encode (bs : list byte) : list byte :=
  match bs with
  | [] => []
  | [b0] =>
      let n0 := Byte.to_N b0 in
      [b64_char (n0 / 4); b64_char (n0 mod 4 * 16); pad; pad]
  | [b0; b1] =>
      let n0 := Byte.to_N b0 in
      let n1 := Byte.to_N b1 in
      [b64_char (n0 / 4); b64_char (n0 mod 4 * 16 + n1 / 16);
       b64_char (n1 mod 16 * 4); pad]
  | b0 :: b1 :: b2 :: rest =>
      let n0 := Byte.to_N b0 in
      let n1 := Byte.to_N b1 in
      let n2 := Byte.to_N b2 in
      b64_char (n0 / 4) :: b64_char (n0 mod 4 * 16 + n1 / 16)
      :: b64_char (n1 mod 16 * 4 + n2 / 64) :: b64_char (n2 mod 64)
      :: b64encode rest
  end.

Definition is_pad (b : byte) : bool := Byte.eqb b pad.

(** [base64.b64decode(s, validate=True)]: groups of four alphabet
    characters, padding only in the last group; anything else raises
    [binascii.Error], a [ValueError]. *)
Fixpoint b64decode (cs : list byte) : result (list byte) :=
  match cs with
  | [] => Ok []
  | c0 :: c1 :: c2 :: c3 :: rest =>
      match b64_value c0, b64_value c1 with
      | Some v0, Some v1 =>
          let o0 := byte_of_N (v0 * 4 + v1 / 16) in
          match b64_value c2, b64_value c3 with
          | Some v2, Some v3 =>
              tail <- b64decode rest ;;
              Ok (o0 :: byte_of_N (v1 mod 16 * 16 + v2 / 4)
                  :: byte_of_N (v2 mod 4 * 64 + v3) :: tail)
          | Some v2, None =>
              match rest with
              | [] => if is_pad c3
                      then Ok [o0; byte_of_N (v1 mod 16 * 16 + v2 / 4)]
                      else Raise ValueError
              | _ :: _ => Raise ValueError
              end
          | None, _ =>
              match rest with
              | [] => if is_pad c2 && is_pad c3 then Ok [o0]
                      else Raise ValueError
              | _ :: _ => Raise ValueError
              end
          end
      | _, _ => Raise ValueError
      end
  | _ => Raise ValueError
  end.

End Base64.

(** ** The schedule view *)

Module Schedule.
Import Py Text Base64.

(** The files on disk: the bytes stored at each path that exists. *)
Definition FileSystem : Type := string -> option (list byte).

(** [path.read_text(encoding='utf-8')]: open in text mode, decode, apply
    universal newlines. *)
Definition read_text (fs : FileSystem) (path : string) : result text :=
  match fs path with
  | None => Raise FileNotFoundError
  | Some content =>
      decoded <- utf8_decode content ;;
      Ok (universal_newlines decoded)
  end.

(** [Path(__file__).parent/'assets/leman_bicer_schedule.html'], for the
    directory [app_dir] the script lives in. *)
Definition schedule_path (app_dir : string) : string :=
  (app_dir ++ "/" ++ "assets/leman_bicer_schedule.html")%string.

(** [get_schedule_html].  (The [st.cache_data] decorator only memoises the
    call.) *)
Definition get_schedule_html (fs : FileSystem) (app_dir : string) : result text :=
  read_text fs (schedule_path app_dir).

Definition data_url_prefix : text := text_of_string "data:text/html;base64,".

(** [_build_preview_data_url]. *)
Definition _build_preview_data_url (html : text) : result text :=
  utf8 <- utf8_encode html ;;
  encoded <- ascii_decode (b64encode utf8) ;;
  Ok (data_url_prefix ++ encoded).

(** Reading a data URL back: drop the fixed prefix, decode the payload. *)
Definition decode_preview_payload (url : text) : result (list byte) :=
  payload <- ascii_encode (skipn (length data_url_prefix) url) ;;
  b64decode payload.

End Schedule.

(* ================================================================== *)
(** * Part II: properties                                              *)
(* ================================================================== *)

(** ** Float formatting *)

Module FormatProps.
Import PyFloat.





(** A tie goes to the even neighbour. *)
Lemma round_half_even_tie num den :
  (0 < den)%N -> (2 * (num mod den) = den)%N ->
  N.even (round_half_even num den) = true.
Proof.
  intros Hden Htie. unfold round_half_even.
  rewrite Htie, N.compare_refl.
  destruct (N.even (num / den)) eqn:E; [exact E |].
  rewrite N.add_1_r, N.even_succ. rewrite <- N.negb_even, E. reflexivity.
Qed.











Example format_f_grouping :
  format_f true 0 1234567.5%float = "1,234,568"
  /\ format_f true 2 1234.5%float = "1,234.50"
  /\ format_f true 0 (-2.5)%float = "-2"
  /\ format_f true 2 infinity = "inf"
  /\ format_f true 2 nan = "nan".
Proof. repeat split; vm_compute; reflexivity. Qed.

End FormatProps.

(** ** The growth metric *)

Module MetricProps.
Import Py Pandas Gdp PyFloat Dashboard.

(** The metric shown when a boundary year has no record for the country. *)
Definition unavailable (country : string) : Metric :=
  mkMetric (country ++ " GDP")%string "Data unavailable" "n/a" off.

Lemma country_metric_nil_first country last_gdp_series :
  country_metric country [] last_gdp_series = Ok (unavailable country).
Proof. reflexivity. Qed.

Lemma country_metric_nil_last country first_gdp_series :
  country_metric country first_gdp_series [] = Ok (unavailable country).
Proof. destruct first_gdp_series; reflexivity. Qed.

(** A series is empty exactly when the frame holds no record of that
    country at that year. *)
Lemma gdp_series_empty_iff gdp_df year country :
  gdp_series (at_year gdp_df year) country = [] <->
  forall r, In r gdp_df ->
            ~ (Year r = year /\ cell_eq (Country_Code r) country = true).
Proof.
  unfold gdp_series, at_year. split.
  - intros Hnil r Hin [Hy Hc].
    assert (Hr : In (GDP r)
              (map GDP (filter (fun r0 => cell_eq (Country_Code r0) country)
                          (filter (fun r0 => (Year r0 =? year)%Z) gdp_df)))).
    { apply in_map, filter_In. split; [| exact Hc].
      apply filter_In. split; [exact Hin | now apply Z.eqb_eq]. }
    rewrite Hnil in Hr. exact Hr.
  - intros Hnone.
    destruct (filter _ (filter _ gdp_df)) as [| r rest] eqn:E; [reflexivity |].
    assert (Hr : In r (r :: rest)) by now left.
    rewrite <- E in Hr. apply filter_In in Hr. destruct Hr as [Hr Hc].
    apply filter_In in Hr. destruct Hr as [Hin Hy].
    exfalso. apply (Hnone r Hin). split; [now apply Z.eqb_eq | exact Hc].
Qed.

(** No record of the country at a boundary year: the metric shown is the
    unavailable one. *)
Lemma metric_for_no_record gdp_df from_year to_year country :
  (forall r, In r gdp_df ->
             ~ (Year r = from_year /\ cell_eq (Country_Code r) country = true))
  \/ (forall r, In r gdp_df ->
              ~ (Year r = to_year /\ cell_eq (Country_Code r) country = true)) ->
  metric_for gdp_df from_year to_year country = Ok (unavailable country).
Proof.
  unfold metric_for. intros [H | H]; apply gdp_series_empty_iff in H;
    rewrite H.
  - apply country_metric_nil_first.
  - apply country_metric_nil_last.
Qed.

(** C3. When either boundary-year lookup found no record (its series is
    empty), the metric is exactly value "Data unavailable", delta "n/a",
    colour off, whatever the other series holds. *)
Theorem country_metric_absent country first_gdp_series last_gdp_series :
  first_gdp_series = [] \/ last_gdp_series = [] ->
  country_metric country first_gdp_series last_gdp_series =
  Ok (mkMetric (country ++ " GDP")%string "Data unavailable" "n/a" off).
Proof.
  intros [-> | ->].
  - apply country_metric_nil_first.
  - apply country_metric_nil_last.
Qed.

Lemma country_metric_absent_witness :
  country_metric "DEU" [Number 1000000000; Number nan] [] =
  Ok (mkMetric "DEU GDP" "Data unavailable" "n/a" off).
Proof.
  apply (country_metric_absent "DEU" [Number 1000000000; Number nan] []).
  right. reflexivity.
Defined.

(** Both series present and numeric: the metric in terms of the branch
    the [isnan] test selects. *)
Lemma country_metric_numbers country first last rest1 rest2 :
  country_metric country (Number first :: rest1) (Number last :: rest2) =
  Ok (mkMetric (country ++ " GDP")%string
        (format_f true 0 (last / billion)%float ++ "B")%string
        (fst (growth_of (growth_branch (first / billion) (last / billion))))
        (snd (growth_of (growth_branch (first / billion) (last / billion))))).
Proof.
  unfold country_metric. simpl.
  destruct (growth_of _). reflexivity.
Qed.





(** C6. The division is not guarded against a zero first value: there
    are present, non-NaN inputs with first value 0 for which the [isnan]
    test selects the division arm with a zero divisor; the delta is then
    the printed quotient ("infx"), colour normal, not the "n/a" sentinel
    and not an exception. *)
Theorem zero_first_value_reaches_division :
  exists first last : float,
    is_nan first = false /\ is_nan last = false /\
    (first =? 0)%float = true /\
    (exists dividend divisor,
        growth_branch (first / billion) (last / billion)
        = DivisionBranch dividend divisor
        /\ (divisor =? 0)%float = true) /\
    country_metric "DEU" [Number first] [Number last] =
    Ok (mkMetric "DEU GDP" "1B" "infx" normal).
Proof.
  exists 0%float, 1000000000%float.
  repeat split.
  exists (1000000000 / billion)%float, (0 / billion)%float.
  split; reflexivity.
Qed.

End MetricProps.

(** ** Filtering by year range and country selection *)

Module FilterProps.
Import Py Pandas Gdp PyFloat Dashboard.

Lemma isin_true_iff c values :
  isin c values = true <-> exists s, c = Text s /\ In s values.
Proof.
  destruct c as [s | x]; simpl.
  - rewrite existsb_exists. split.
    + intros [t [Hin Heq]]. apply String.eqb_eq in Heq. subst t.
      now exists s.
    + intros [t [Heq Hin]]. injection Heq as <-.
      exists s. split; [exact Hin | apply String.eqb_refl].
  - split; [discriminate | intros [s [Heq _]]; discriminate].
Qed.


(** The mask is true exactly on the rows the selection describes. *)
Lemma in_selection_true_iff selected from_year to_year r :
  in_selection selected from_year to_year r = true <->
  (from_year <= Year r <= to_year)%Z /\
  exists s, Country_Code r = Text s /\ In s selected.
Proof.
  unfold in_selection.
  rewrite !andb_true_iff, isin_true_iff, !Z.leb_le. tauto.
Qed.

(** C9. The filtering step returns exactly the records whose year lies
    in [from_year, to_year] and whose country code is selected: a record is
    in the result iff it is in the input and satisfies both conditions, and
    every occurrence of such a record is kept, at its place in the order. *)
Theorem filtered_gdp_df_exact gdp_df selected from_year to_year :
  (forall r,
      In r (filtered_gdp_df gdp_df selected from_year to_year) <->
      In r gdp_df /\ (from_year <= Year r <= to_year)%Z /\
      exists s, Country_Code r = Text s /\ In s selected)
  /\
  (forall before r after,
      gdp_df = before ++ r :: after ->
      (from_year <= Year r <= to_year)%Z ->
      (exists s, Country_Code r = Text s /\ In s selected) ->
      filtered_gdp_df gdp_df selected from_year to_year =
      filtered_gdp_df before selected from_year to_year
      ++ r :: filtered_gdp_df after selected from_year to_year).
Proof.
  unfold filtered_gdp_df. split.
  - intros r. rewrite filter_In, in_selection_true_iff. tauto.
  - intros before r after -> Hyear Hcode.
    rewrite filter_app. simpl.
    assert (Hsel : in_selection selected from_year to_year r = true)
      by (apply in_selection_true_iff; auto).
    now rewrite Hsel.
Qed.

Definition sample_long : list LongRecord :=
  [ mkLong (Text "DEU") 1960 (Number 1000000000);
    mkLong (Text "FRA") 1960 (Number nan);
    mkLong (Text "DEU") 2022 (Number 2000000000);
    mkLong (Text "FRA") 2022 (Number 3000000000) ].

Lemma filtered_gdp_df_exact_witness :
  filtered_gdp_df sample_long ["FRA"] 1961 2022 =
  filtered_gdp_df (firstn 3 sample_long) ["FRA"] 1961 2022
  ++ mkLong (Text "FRA") 2022 (Number 3000000000)
     :: filtered_gdp_df [] ["FRA"] 1961 2022.
Proof.
  apply (proj2 (filtered_gdp_df_exact sample_long ["FRA"] 1961 2022)).
  - reflexivity.
  - simpl. lia.
  - exists "FRA". split; [reflexivity | now left].
Defined.

End FilterProps.

(** ** Per-country independence of the metric *)

Module Independence.
Import Py Pandas Gdp PyFloat Dashboard FilterProps.











(** *** The loop over the selection *)

(** Every GDP cell of the frame is a number (NaN included). *)
Definition numeric (gdp_df : list LongRecord) : Prop :=
  Forall (fun r => exists x, GDP r = Number x) gdp_df.

Lemma gdp_series_numeric gdp_df year country :
  numeric gdp_df ->
  Forall (fun c => exists x, c = Number x)
    (gdp_series (at_year gdp_df year) country).
Proof.
  intros Hnum. unfold gdp_series, at_year. apply Forall_forall.
  intros c Hc. apply in_map_iff in Hc. destruct Hc as [r [<- Hr]].
  apply filter_In in Hr. destruct Hr as [Hr _].
  apply filter_In in Hr. destruct Hr as [Hr _].
  unfold numeric in Hnum. rewrite Forall_forall in Hnum. now apply Hnum.
Qed.

(** On numeric data the body of the loop never raises. *)
Lemma metric_for_numeric gdp_df from_year to_year country :
  numeric gdp_df ->
  exists m, metric_for gdp_df from_year to_year country = Ok m.
Proof.
  intros Hnum. unfold metric_for.
  pose proof (gdp_series_numeric gdp_df from_year country Hnum) as H1.
  pose proof (gdp_series_numeric gdp_df to_year country Hnum) as H2.
  destruct (gdp_series (at_year gdp_df from_year) country) as [| c1 s1];
    [eexists; reflexivity |].
  destruct (gdp_series (at_year gdp_df to_year) country) as [| c2 s2];
    [eexists; reflexivity |].
  inversion H1 as [| ? ? [x1 ->] _]. inversion H2 as [| ? ? [x2 ->] _].
  rewrite MetricProps.country_metric_numbers. eexists. reflexivity.
Qed.

(** On numeric data the loop runs to its end and shows, for the [j]-th
    selected country, its own metric in column [(i + j) mod 4]. *)
Lemma render_metrics_numeric gdp_df from_year to_year selected :
  numeric gdp_df ->
  forall i, exists shown,
    render_metrics i gdp_df from_year to_year selected = (shown, None)
    /\ map fst shown = map (fun j => j mod 4) (seq i (length selected))
    /\ map (fun cm => Ok (snd cm)) shown
       = map (metric_for gdp_df from_year to_year) selected.
Proof.
  intros Hnum. induction selected as [| country rest IH]; intros i.
  - exists []. repeat split.
  - destruct (metric_for_numeric gdp_df from_year to_year country Hnum)
      as [m Hm].
    destruct (IH (S i)) as (shown & Hrun & Hcols & Hmetrics).
    exists ((i mod 4, m) :: shown). cbn [render_metrics].
    rewrite Hm, Hrun. repeat split.
    + cbn [map fst length seq]. now rewrite Hcols.
    + cbn [map snd]. now rewrite Hm, Hmetrics.
Qed.

End Independence.

(** ** The melt step of [get_gdp_data] *)

Module MeltProps.
Import Py Pandas Gdp.











(** *** Python helpers *)







Lemma mapM_ok {A B : Type} (f : A -> result B) (g : A -> B) xs :
  (forall x, In x xs -> f x = Ok (g x)) -> mapM f xs = Ok (map g xs).
Proof.
  induction xs as [| x rest IH]; intros H; [reflexivity |].
  simpl. rewrite (H x (or_introl eq_refl)). simpl.
  rewrite IH; [reflexivity |].
  intros x' Hx'. apply H. now right.
Qed.


(** *** Columns of a frame *)





(** *** [melt], block by block *)









(** *** Blocks of equal length *)

Section Blocks.
Context {A B : Type} (f : A -> nat -> B) (n : nat).




End Blocks.




(** *** The melted table *)










(** *** A small wide table

    Two countries; the second has no data at all.  Besides the 63 year
    columns the table has a name column and columns labelled 1959 and 2023. *)



(** *** What the loader returns *)







End MeltProps.

(** ** Bytes, base64 and UTF-8 *)

Module CodecProps.
Import Py Text Base64.

Open Scope N_scope.

(** Division and remainder by constants, for [lia]. *)
#[local] Ltac Zify.zify_post_hook ::= Z.to_euclidean_division_equations.

(** Settle the comparisons of the goal from the hypotheses. *)
Ltac decide_comparisons :=
  repeat match goal with
    | |- context [(?a <? ?b)%N] => destruct (N.ltb_spec a b); try lia
    | |- context [(?a <=? ?b)%N] => destruct (N.leb_spec a b); try lia
    | |- context [(?a =? ?b)%N] => destruct (N.eqb_spec a b); try lia
    end;
  cbn [andb orb negb].

Lemma Ok_inj {A : Type} (a b : A) : Ok a = Ok b -> a = b.
Proof. intros H. now injection H. Qed.

(** *** Bytes and numbers *)

Lemma byte_of_to_N (b : byte) : byte_of_N (Byte.to_N b) = b.
Proof. unfold byte_of_N. now rewrite Byte.of_to_N. Qed.

Lemma to_N_lt (b : byte) : Byte.to_N b < 256.
Proof. pose proof (Byte.to_N_bounded b). lia. Qed.

Lemma to_N_byte_of_N n : n < 256 -> Byte.to_N (byte_of_N n) = n.
Proof.
  intros Hn. unfold byte_of_N.
  destruct (Byte.of_N n) as [b |] eqn:E.
  - now apply Byte.to_of_N.
  - apply Byte.of_N_None_iff in E. lia.
Qed.

Lemma byte_of_N_eq n (b : byte) : n = Byte.to_N b -> byte_of_N n = b.
Proof. intros ->. apply byte_of_to_N. Qed.

(** *** base64 *)

Lemma b64_char_lt_128 v : Byte.to_N (b64_char v) < 128.
Proof.
  unfold b64_char. decide_comparisons;
    rewrite to_N_byte_of_N by lia; lia.
Qed.

Lemma b64_value_char v : v < 64 -> b64_value (b64_char v) = Some v.
Proof.
  intros Hv. unfold b64_value, b64_char.
  destruct (N.ltb_spec v 26);
    [| destruct (N.ltb_spec v 52);
       [| destruct (N.ltb_spec v 62); [| destruct (N.eqb_spec v 62)]]];
    rewrite to_N_byte_of_N by lia; decide_comparisons; f_equal; lia.
Qed.

Lemma b64_value_pad : b64_value pad = None.
Proof. reflexivity. Qed.

Lemma is_pad_pad : is_pad pad = true.
Proof. reflexivity. Qed.

(** Lists three elements at a time. *)
Lemma list_ind3 {A : Type} (P : list A -> Prop) :
  P [] -> (forall a, P [a]) -> (forall a b, P [a; b]) ->
  (forall a b c l, P l -> P (a :: b :: c :: l)) ->
  forall l, P l.
Proof.
  intros H0 H1 H2 H3 l.
  enough (H : P l /\ (forall a, P (a :: l)) /\ (forall a b, P (a :: b :: l)))
    by apply H.
  induction l as [| x l (IH0 & IH1 & IH2)]; auto.
Qed.

(** Decoding undoes encoding, for every byte string. *)
Lemma b64decode_b64encode bs : b64decode (b64encode bs) = Ok bs.
Proof.
  induction bs as [| b0 | b0 b1 | b0 b1 b2 rest IH] using list_ind3.
  - reflexivity.
  - pose proof (to_N_lt b0).
    cbn [b64encode b64decode].
    rewrite !b64_value_char, b64_value_pad, is_pad_pad by lia.
    cbn [andb]. do 2 f_equal. apply byte_of_N_eq. lia.
  - pose proof (to_N_lt b0). pose proof (to_N_lt b1).
    cbn [b64encode b64decode].
    rewrite !b64_value_char, b64_value_pad, is_pad_pad by lia.
    do 2 f_equal; [| f_equal]; apply byte_of_N_eq; lia.
  - pose proof (to_N_lt b0). pose proof (to_N_lt b1). pose proof (to_N_lt b2).
    cbn [b64encode b64decode].
    rewrite !b64_value_char by lia. rewrite IH. cbn [bind].
    do 2 f_equal; [| f_equal; [| f_equal]]; apply byte_of_N_eq; lia.
Qed.

(** The encoder emits ASCII only, so [.decode('ascii')] returns its
    characters and [.encode('ascii')] brings them back. *)
Lemma b64encode_ascii bs : Forall (fun b => Byte.to_N b < 128) (b64encode bs).
Proof.
  induction bs as [| b0 | b0 b1 | b0 b1 b2 rest IH] using list_ind3;
    cbn [b64encode]; repeat constructor;
    try apply b64_char_lt_128; try exact IH.
Qed.

Lemma ascii_decode_ok bs :
  Forall (fun b => Byte.to_N b < 128) bs ->
  ascii_decode bs = Ok (map Byte.to_N bs).
Proof.
  intros H. unfold ascii_decode. apply MeltProps.mapM_ok.
  intros b Hb. rewrite Forall_forall in H. specialize (H b Hb).
  now destruct (N.ltb_spec (Byte.to_N b) 128); [| lia].
Qed.

Lemma ascii_encode_ok bs :
  Forall (fun b => Byte.to_N b < 128) bs ->
  ascii_encode (map Byte.to_N bs) = Ok bs.
Proof.
  intros H. unfold ascii_encode.
  rewrite (MeltProps.mapM_ok _ byte_of_N).
  - rewrite map_map. f_equal. rewrite <- (map_id bs) at 2.
    apply map_ext. intros b. apply byte_of_to_N.
  - intros c Hc. apply in_map_iff in Hc. destruct Hc as [b [<- Hb]].
    rewrite Forall_forall in H. specialize (H b Hb).
    now destruct (N.ltb_spec (Byte.to_N b) 128); [| lia].
Qed.

(** *** UTF-8 *)

Lemma continuation_byte x : x < 64 -> continuation (byte_of_N (128 + x)) = Some x.
Proof.
  intros Hx. unfold continuation. rewrite to_N_byte_of_N by lia.
  decide_comparisons. f_equal. lia.
Qed.

Lemma continuation_inv b x :
  continuation b = Some x -> x < 64 /\ Byte.to_N b = 128 + x.
Proof.
  unfold continuation.
  destruct (N.leb_spec 128 (Byte.to_N b)); [| discriminate].
  destruct (N.ltb_spec (Byte.to_N b) 192); [| discriminate].
  intros [= <-]. lia.
Qed.

(** Every scalar value has an encoding. *)
Lemma utf8_encode_char_scalar c :
  scalar_value c -> exists bs, utf8_encode_char c = Ok bs.
Proof.
  intros Hc. unfold utf8_encode_char, is_surrogate.
  unfold scalar_value in Hc. decide_comparisons; eauto.
Qed.

(** The decoder reads back what the encoder wrote for one code point. *)
Lemma utf8_decode_encode_char c bs rest :
  utf8_encode_char c = Ok bs ->
  utf8_decode (bs ++ rest) = (tail <- utf8_decode rest ;; Ok (c :: tail)).
Proof.
  unfold utf8_encode_char.
  destruct (N.ltb_spec c 128) as [H1 | H1];
    [| destruct (N.ltb_spec c 2048) as [H2 | H2];
       [| destruct (N.ltb_spec c 65536) as [H3 | H3];
          [destruct (is_surrogate c) eqn:Hs
          | destruct (N.ltb_spec c 1114112) as [H4 | H4]]]];
    try discriminate; intros H; apply Ok_inj in H; subst bs;
    cbn [app utf8_decode].
  - rewrite to_N_byte_of_N by lia. decide_comparisons. reflexivity.
  - rewrite to_N_byte_of_N by lia. decide_comparisons.
    rewrite continuation_byte by lia.
    replace ((192 + c / 64 - 192) * 64 + c mod 64) with c by lia.
    decide_comparisons. reflexivity.
  - rewrite to_N_byte_of_N by lia. decide_comparisons.
    rewrite !continuation_byte by lia.
    replace ((224 + c / 4096 - 224) * 4096 + (c / 64) mod 64 * 64 + c mod 64)
      with c by lia.
    rewrite Hs. decide_comparisons. reflexivity.
  - rewrite to_N_byte_of_N by lia. decide_comparisons.
    rewrite !continuation_byte by lia.
    replace ((240 + c / 262144 - 240) * 262144 + (c / 4096) mod 64 * 4096
             + (c / 64) mod 64 * 64 + c mod 64) with c by lia.
    decide_comparisons. reflexivity.
Qed.

(** [s.encode('utf-8')] returns for text made of scalar values. *)
Lemma utf8_encode_total s :
  Forall scalar_value s -> exists bs, utf8_encode s = Ok bs.
Proof.
  induction 1 as [| c rest Hc _ [tail IH]]; [now exists [] |].
  destruct (utf8_encode_char_scalar c Hc) as [bs Hbs].
  exists (bs ++ tail). cbn [utf8_encode]. now rewrite Hbs, IH.
Qed.

(** Decoding undoes encoding. *)
Lemma utf8_decode_encode s bs :
  utf8_encode s = Ok bs -> utf8_decode bs = Ok s.
Proof.
  revert bs. induction s as [| c rest IH]; intros bs; cbn [utf8_encode].
  - now intros [= <-].
  - destruct (utf8_encode_char c) as [cs | e] eqn:Hc; [| discriminate].
    destruct (utf8_encode rest) as [tail | e] eqn:Ht; [| discriminate].
    cbn [bind]. intros [= <-].
    rewrite (utf8_decode_encode_char c cs tail Hc), (IH tail eq_refl).
    reflexivity.
Qed.

(** The encoder, from the bytes the decoder accepted. *)
Lemma utf8_encode_char_1 (b0 : byte) :
  Byte.to_N b0 < 128 -> utf8_encode_char (Byte.to_N b0) = Ok [b0].
Proof.
  intros H. unfold utf8_encode_char. decide_comparisons.
  now rewrite byte_of_to_N.
Qed.

Lemma utf8_encode_char_2 (b0 b1 : byte) x1 c :
  192 <= Byte.to_N b0 < 224 -> continuation b1 = Some x1 ->
  c = (Byte.to_N b0 - 192) * 64 + x1 -> 128 <= c ->
  utf8_encode_char c = Ok [b0; b1].
Proof.
  intros H0 H1 Hc Hmin. apply continuation_inv in H1.
  unfold utf8_encode_char. decide_comparisons.
  do 2 f_equal; [| f_equal]; apply byte_of_N_eq; lia.
Qed.

Lemma utf8_encode_char_3 (b0 b1 b2 : byte) x1 x2 c :
  224 <= Byte.to_N b0 < 240 ->
  continuation b1 = Some x1 -> continuation b2 = Some x2 ->
  c = (Byte.to_N b0 - 224) * 4096 + x1 * 64 + x2 ->
  2048 <= c -> is_surrogate c = false ->
  utf8_encode_char c = Ok [b0; b1; b2].
Proof.
  intros H0 H1 H2 Hc Hmin Hs.
  apply continuation_inv in H1. apply continuation_inv in H2.
  unfold utf8_encode_char. rewrite Hs. decide_comparisons.
  do 2 f_equal; [| f_equal; [| f_equal]]; apply byte_of_N_eq; lia.
Qed.

Lemma utf8_encode_char_4 (b0 b1 b2 b3 : byte) x1 x2 x3 c :
  240 <= Byte.to_N b0 < 248 ->
  continuation b1 = Some x1 -> continuation b2 = Some x2 ->
  continuation b3 = Some x3 ->
  c = (Byte.to_N b0 - 240) * 262144 + x1 * 4096 + x2 * 64 + x3 ->
  65536 <= c <= 1114111 ->
  utf8_encode_char c = Ok [b0; b1; b2; b3].
Proof.
  intros H0 H1 H2 H3 Hc Hrange.
  apply continuation_inv in H1. apply continuation_inv in H2.
  apply continuation_inv in H3.
  unfold utf8_encode_char. decide_comparisons.
  do 2 f_equal; [| f_equal; [| f_equal; [| f_equal]]];
    apply byte_of_N_eq; lia.
Qed.

Lemma utf8_encode_cons c cs rest tail :
  utf8_encode_char c = Ok cs -> utf8_encode rest = Ok tail ->
  utf8_encode (c :: rest) = Ok (cs ++ tail).
Proof. intros Hc Ht. cbn [utf8_encode]. now rewrite Hc, Ht. Qed.

(** Encoding undoes decoding: the decoder accepts only the bytes the
    encoder writes. *)
Lemma utf8_encode_decode_bounded n :
  forall bs s, (length bs <= n)%nat ->
               utf8_decode bs = Ok s -> utf8_encode s = Ok bs.
Proof.
  induction n as [| n IH]; intros [| b0 rest] s Hlen; cbn [utf8_decode];
    try (intros H; apply Ok_inj in H; subst s; reflexivity).
  - simpl in Hlen. lia.
  - simpl in Hlen.
    destruct (N.ltb_spec (Byte.to_N b0) 128) as [H1 | H1].
    { destruct (utf8_decode rest) as [tail | e] eqn:Ht; [| discriminate].
      cbn [bind]. intros Heq. apply Ok_inj in Heq. subst s.
      apply (utf8_encode_cons _ [b0]); [now apply utf8_encode_char_1 |].
      apply IH; [lia | exact Ht]. }
    destruct (N.ltb_spec (Byte.to_N b0) 192) as [H2 | H2]; [discriminate |].
    destruct (N.ltb_spec (Byte.to_N b0) 224) as [H3 | H3].
    { destruct rest as [| b1 rest1]; [discriminate |].
      destruct (continuation b1) as [x1 |] eqn:Hx1; [| discriminate].
      destruct (N.ltb_spec ((Byte.to_N b0 - 192) * 64 + x1) 128);
        [discriminate |].
      destruct (utf8_decode rest1) as [tail | e] eqn:Ht; [| discriminate].
      cbn [bind]. intros Heq. apply Ok_inj in Heq. subst s.
      apply (utf8_encode_cons _ [b0; b1]).
      - apply (utf8_encode_char_2 b0 b1 x1); auto.
      - apply IH; [simpl in Hlen; lia | exact Ht]. }
    destruct (N.ltb_spec (Byte.to_N b0) 240) as [H4 | H4].
    { destruct rest as [| b1 [| b2 rest2]]; try discriminate.
      destruct (continuation b1) as [x1 |] eqn:Hx1; [| discriminate].
      destruct (continuation b2) as [x2 |] eqn:Hx2; [| discriminate].
      destruct (N.ltb_spec
                  ((Byte.to_N b0 - 224) * 4096 + x1 * 64 + x2) 2048);
        [discriminate |].
      cbn [orb].
      destruct (is_surrogate _) eqn:Hs; [discriminate |].
      destruct (utf8_decode rest2) as [tail | e] eqn:Ht; [| discriminate].
      cbn [bind]. intros Heq. apply Ok_inj in Heq. subst s.
      apply (utf8_encode_cons _ [b0; b1; b2]).
      - apply (utf8_encode_char_3 b0 b1 b2 x1 x2); auto.
      - apply IH; [simpl in Hlen; lia | exact Ht]. }
    destruct (N.ltb_spec (Byte.to_N b0) 248) as [H5 | H5]; [| discriminate].
    destruct rest as [| b1 [| b2 [| b3 rest3]]]; try discriminate.
    destruct (continuation b1) as [x1 |] eqn:Hx1; [| discriminate].
    destruct (continuation b2) as [x2 |] eqn:Hx2; [| discriminate].
    destruct (continuation b3) as [x3 |] eqn:Hx3; [| discriminate].
    destruct (N.ltb_spec
                ((Byte.to_N b0 - 240) * 262144 + x1 * 4096 + x2 * 64 + x3)
                65536);
      [discriminate |].
    cbn [orb].
    destruct (N.ltb_spec 1114111
                ((Byte.to_N b0 - 240) * 262144 + x1 * 4096 + x2 * 64 + x3));
      [discriminate |].
    destruct (utf8_decode rest3) as [tail | e] eqn:Ht; [| discriminate].
    cbn [bind]. intros Heq. apply Ok_inj in Heq. subst s.
    apply (utf8_encode_cons _ [b0; b1; b2; b3]).
    + apply (utf8_encode_char_4 b0 b1 b2 b3 x1 x2 x3); auto.
    + apply IH; [simpl in Hlen; lia | exact Ht].
Qed.

Lemma utf8_encode_decode bs s :
  utf8_decode bs = Ok s -> utf8_encode s = Ok bs.
Proof. apply (utf8_encode_decode_bounded (length bs)). lia. Qed.

(** *** Carriage returns and universal newlines *)

(** A carriage return in the text is a byte 13 in its encoding. *)
Lemma utf8_encode_carriage_return s bs :
  utf8_encode s = Ok bs -> In 13 s -> In (byte_of_N 13) bs.
Proof.
  revert bs. induction s as [| c rest IH]; intros bs; [intros _ [] |].
  cbn [utf8_encode].
  destruct (utf8_encode_char c) as [cs | e] eqn:Hc; [| discriminate].
  destruct (utf8_encode rest) as [tail | e] eqn:Ht; [| discriminate].
  cbn [bind]. intros H. apply Ok_inj in H. subst bs.
  intros [-> | Hin]; apply in_or_app.
  - left. vm_compute in Hc. apply Ok_inj in Hc. subst cs. now left.
  - right. now apply IH.
Qed.

(** Text without a carriage return passes through unchanged. *)
Lemma universal_newlines_id s : ~ In 13 s -> universal_newlines s = s.
Proof.
  induction s as [| c rest IH]; [reflexivity |].
  intros Hnot. cbn [universal_newlines].
  destruct (N.eqb_spec c 13) as [-> | Hc].
  - exfalso. apply Hnot. now left.
  - f_equal. apply IH. intros Hin. apply Hnot. now right.
Qed.

End CodecProps.

(** ** The schedule view *)

Module ScheduleProps.
Import Py Text Base64 Schedule CodecProps.

Open Scope N_scope.

(** A disk holding [content] at the schedule path below [app_dir] and
    nothing else. *)
Definition disk (app_dir : string) (content : list byte) : FileSystem :=
  fun path =>
    if String.eqb path (schedule_path app_dir) then Some content else None.

(** The empty disk. *)
Definition no_file : FileSystem := fun _ => None.

(** "a\r\nb": a file with Windows line ends. *)
Definition crlf_file : list byte := map byte_of_N [97; 13; 10; 98].

(** "<é€>" followed by U+1F600: one to four bytes per code point. *)
Definition sample_html : text := [60; 233; 8364; 62; 128512].

Lemma sample_html_scalar : Forall scalar_value sample_html.
Proof. repeat constructor; unfold scalar_value; lia. Qed.

Lemma skipn_data_url_prefix payload :
  skipn (length data_url_prefix) (data_url_prefix ++ payload) = payload.
Proof. reflexivity. Qed.

(** A lone surrogate cannot be encoded: the call raises. *)
Example preview_url_surrogate :
  _build_preview_data_url [55296] = Raise UnicodeEncodeError.
Proof. reflexivity. Qed.



(** C8 as stated fails: the text read from a file that exists need not be
    byte-for-byte the file.  Of "a\r\nb" the call returns "a\nb". *)
Lemma read_text_translates_newlines :
  exists s,
    disk "/app" crlf_file (schedule_path "/app") = Some crlf_file
    /\ get_schedule_html (disk "/app" crlf_file) "/app" = Ok s
    /\ s = [97; 10; 98]
    /\ utf8_encode s <> Ok crlf_file.
Proof.
  exists [97; 10; 98].
  split; [reflexivity |]. split; [reflexivity |]. split; [reflexivity |].
  intros H. apply Ok_inj in H.
  apply (f_equal (@length byte)) in H. discriminate H.
Qed.

(** C8, amended.  [get_schedule_html] raises [FileNotFoundError] when the
    schedule file does not exist.  When it exists and holds valid UTF-8 the
    call returns the decoded text after universal-newline translation; the
    decoded text has exactly the bytes of the file, so the result is the
    file byte for byte whenever the file holds no carriage return.  When
    the bytes are not valid UTF-8 the decoder's exception is raised.
    Nothing else is done to the content. *)
Theorem get_schedule_html_reads fs app_dir :
  (fs (schedule_path app_dir) = None ->
   get_schedule_html fs app_dir = Raise FileNotFoundError)
  /\
  (forall content decoded,
      fs (schedule_path app_dir) = Some content ->
      utf8_decode content = Ok decoded ->
      get_schedule_html fs app_dir = Ok (universal_newlines decoded)
      /\ utf8_encode decoded = Ok content
      /\ (~ In (byte_of_N 13) content ->
          get_schedule_html fs app_dir = Ok decoded))
  /\
  (forall content e,
      fs (schedule_path app_dir) = Some content ->
      utf8_decode content = Raise e ->
      get_schedule_html fs app_dir = Raise e).
Proof.
  unfold get_schedule_html, read_text. split; [| split].
  - now intros ->.
  - intros content decoded Hfile Hdecoded. rewrite Hfile, Hdecoded.
    cbn [bind]. split; [reflexivity |].
    split; [now apply utf8_encode_decode |].
    intros Hcr. f_equal.
    apply universal_newlines_id. intros Hin. apply Hcr.
    apply (utf8_encode_carriage_return decoded); [| exact Hin].
    now apply utf8_encode_decode.
  - intros content e -> ->. reflexivity.
Qed.

Lemma get_schedule_html_reads_witness :
  get_schedule_html no_file "/app" = Raise FileNotFoundError
  /\ get_schedule_html (disk "/app" (map byte_of_N [97; 10; 98])) "/app"
     = Ok [97; 10; 98].
Proof.
  split.
  - apply (proj1 (get_schedule_html_reads no_file "/app")). reflexivity.
  - apply (proj1 (proj2 (get_schedule_html_reads
                           (disk "/app" (map byte_of_N [97; 10; 98])) "/app"))
             (map byte_of_N [97; 10; 98]) [97; 10; 98]).
    + reflexivity.
    + reflexivity.
    + vm_compute. intros [H | [H | [H | []]]]; discriminate H.
Defined.

End ScheduleProps.

(* ================================================================== *)
(** * Part III: the two views as a whole                               *)
(* ================================================================== *)

(** ** Embedding of [render_gdp_dashboard] and [render_schedule_view]

    A view is what it hands to the widgets, as a record.  What the user
    enters (the two slider ends, the selection of the multiselect) is an
    argument.  The fixed titles, captions and tab names are left out. *)

Module App.
Import Py Pandas Gdp PyFloat Dashboard Text Base64 Schedule.








(** The double quote, which a string of this file cannot hold. *)
Definition dquote : text := [34%N].

(** The markup around the preview link. *)
Definition anchor_open : text := text_of_string "<a href=" ++ dquote.

Definition anchor_rest : text :=
  dquote ++ text_of_string " target=" ++ dquote ++ text_of_string "_blank"
  ++ dquote ++ text_of_string " rel=" ++ dquote ++ text_of_string "noopener"
  ++ dquote ++ text_of_string " style=" ++ dquote
  ++ text_of_string "display:inline-flex;align-items:center;gap:0.5rem;padding:0.6rem 1rem;"
  ++ text_of_string "background-color:#2563eb;color:#ffffff;border-radius:0.5rem;text-decoration:none;"
  ++ text_of_string "font-weight:600;" ++ dquote ++ text_of_string ">"
  ++ [129125%N] ++ text_of_string " " ++ [214%N]
  ++ text_of_string "n izlemeyi yeni sekmede a" ++ [231%N]
  ++ text_of_string "</a>".

(** What [render_schedule_view] shows: the anchor given to [st.markdown],
    the document given to [components.html], the text given to [st.code]
    and the arguments of [st.download_button]. *)
Record SchedulePage : Type := mkSchedulePage {
  preview_anchor : text;
  embedded_html : text;
  source_code : text;
  download_data : text;
  download_file_name : string;
  download_mime : string
}.

(** [render_schedule_view]. *)
Definition render_schedule_view (fs : FileSystem) (app_dir : string)
  : result SchedulePage :=
  schedule_html <- get_schedule_html fs app_dir ;;
  preview_link <- _build_preview_data_url schedule_html ;;
  Ok (mkSchedulePage (anchor_open ++ preview_link ++ anchor_rest)
        schedule_html schedule_html schedule_html
        "leman-bicer-ders-programi.html" "text/html").

(** Reading an attribute value: the characters before the next double
    quote. *)
Fixpoint until_dquote (s : text) : text :=
  match s with
  | [] => []
  | c :: rest => if (c =? 34)%N then [] else c :: until_dquote rest
  end.

(** The [href] of an anchor that starts with [anchor_open]. *)
Definition href_of (anchor : text) : text :=
  until_dquote (skipn (length anchor_open) anchor).

End App.

(** ** More on the loader *)

Module LoaderProps.
Import Py Pandas Gdp MeltProps.












End LoaderProps.

(** ** The GDP view on a loaded table *)

Module GdpViewProps.
Import Py Pandas Gdp PyFloat Dashboard MeltProps App.

(** *** Minimum and maximum of a column *)





(** *** [unique] *)












(** *** The page of a wide table *)














(** *** Year slices and lookups *)

















(** X8. When the last-year cell of the record found is NaN, the metric
    shows the value "nanB" with delta "n/a" and colour off, whatever the
    first-year value is. *)
Theorem country_metric_last_nan country first rest1 rest2 :
  country_metric country (Number first :: rest1) (Number nan :: rest2)
  = Ok (mkMetric (country ++ " GDP")%string "nanB" "n/a" off).
Proof.
  rewrite MetricProps.country_metric_numbers. unfold growth_branch.
  change (is_nan (nan / billion)%float) with true.
  rewrite orb_true_r. reflexivity.
Qed.

(** *** The chart data *)












(** *** The loop over the selection *)

(** X10. When every GDP cell of the table is a number, the loop shows
    one metric per selected country, in the order of the selection, none
    raising: the [j]-th country gets its own metric, in column [j mod 4]
    of the four. *)
Theorem metrics_round_robin gdp_df from_year to_year selected :
  Independence.numeric gdp_df ->
  exists shown,
    render_metrics 0 gdp_df from_year to_year selected = (shown, None)
    /\ length shown = length selected
    /\ (forall j country,
          nth_error selected j = Some country ->
          exists m,
            metric_for gdp_df from_year to_year country = Ok m
            /\ nth_error shown j = Some (j mod 4, m)).
Proof.
  intros Hnum.
  destruct (Independence.render_metrics_numeric gdp_df from_year to_year
              selected Hnum 0) as (shown & Hrun & Hcols & Hmetrics).
  exists shown. split; [exact Hrun |].
  assert (Hlen : length shown = length selected).
  { rewrite <- (length_map fst shown), Hcols, length_map, length_seq.
    reflexivity. }
  split; [exact Hlen |].
  intros j country Hj.
  assert (Hlt : j < length selected)
    by (apply nth_error_Some; rewrite Hj; discriminate).
  destruct (nth_error shown j) as [[col m] |] eqn:Hshown.
  2:{ apply nth_error_None in Hshown. lia. }
  exists m.
  pose proof (f_equal (fun l => nth_error l j) Hmetrics) as Hm.
  cbn beta in Hm. rewrite !nth_error_map, Hshown, Hj in Hm.
  cbn [option_map snd] in Hm. injection Hm as Hm.
  pose proof (f_equal (fun l => nth_error l j) Hcols) as Hc.
  cbn beta in Hc. rewrite !nth_error_map, Hshown, nth_error_seq in Hc.
  destruct (Nat.ltb_spec j (length selected)); [| lia].
  cbn [option_map fst] in Hc. injection Hc as Hc.
  split; [now symmetry |]. now rewrite Hc.
Qed.

Lemma metrics_round_robin_witness :
  exists shown,
    render_metrics 0 FilterProps.sample_long 1960 2022
      ["DEU"; "FRA"; "BRA"; "MEX"; "JPN"] = (shown, None)
    /\ length shown = 5.
Proof.
  destruct (metrics_round_robin FilterProps.sample_long 1960 2022
              ["DEU"; "FRA"; "BRA"; "MEX"; "JPN"])
    as (shown & Hrun & Hlen & _).
  - unfold Independence.numeric, FilterProps.sample_long.
    repeat constructor; eexists; reflexivity.
  - exists shown. split; [exact Hrun | exact Hlen].
Defined.






End GdpViewProps.

(** ** The schedule view *)

Module ScheduleViewProps.
Import Py Text Base64 Schedule CodecProps App.

Open Scope N_scope.

#[local] Ltac Zify.zify_post_hook ::= Z.to_euclidean_division_equations.

(** *** Universal newlines *)

Lemma universal_newlines_no_cr s : ~ In 13 (universal_newlines s).
Proof.
  enough (H : ~ In 13 (universal_newlines s)
              /\ forall c, ~ In 13 (universal_newlines (c :: s))) by apply H.
  induction s as [| d rest [IH0 IH1]].
  - split; [intros [] |]. intros c. cbn [universal_newlines].
    destruct (N.eqb_spec c 13); intros [H | []]; [discriminate | congruence].
  - split; [apply IH1 |]. intros c. cbn [universal_newlines].
    destruct (N.eqb_spec c 13) as [-> | Hc].
    + destruct (N.eqb_spec d 10) as [-> | Hd].
      * intros [H | H]; [discriminate | now apply IH0].
      * intros [H | H]; [discriminate |]. now apply (IH1 d).
    + intros [H | H]; [congruence |]. now apply (IH1 d).
Qed.

Lemma in_universal_newlines s c :
  In c (universal_newlines s) -> In c s \/ c = 10.
Proof.
  enough (H : (In c (universal_newlines s) -> In c s \/ c = 10)
              /\ forall d, In c (universal_newlines (d :: s)) ->
                           In c (d :: s) \/ c = 10) by apply H.
  induction s as [| e rest [IH0 IH1]].
  - split; [intros [] |]. intros d. cbn [universal_newlines].
    destruct (N.eqb_spec d 13); intros [H | []]; [now right | left; now left].
  - split; [apply IH1 |]. intros d. cbn [universal_newlines].
    destruct (N.eqb_spec d 13) as [-> | Hd].
    + destruct (N.eqb_spec e 10) as [-> | He].
      * intros [H | H]; [now right |].
        destruct (IH0 H) as [Hin | ->]; [| now right].
        left. right. now right.
      * intros [H | H]; [now right |].
        destruct (IH1 e H) as [Hin | ->]; [| now right].
        left. now right.
    + intros [H | H]; [left; now left |].
      destruct (IH1 e H) as [Hin | ->]; [| now right].
      left. now right.
Qed.

(** *** What can be encoded *)

Lemma utf8_encode_char_ok_scalar c bs :
  utf8_encode_char c = Ok bs -> scalar_value c.
Proof.
  unfold utf8_encode_char, is_surrogate, scalar_value.
  destruct (N.ltb_spec c 128); [lia |].
  destruct (N.ltb_spec c 2048); [lia |].
  destruct (N.ltb_spec c 65536).
  - destruct (N.leb_spec 55296 c); destruct (N.leb_spec c 57343);
      cbn [andb]; try discriminate; lia.
  - destruct (N.ltb_spec c 1114112); [lia | discriminate].
Qed.

Lemma utf8_encode_ok_scalar s bs :
  utf8_encode s = Ok bs -> Forall scalar_value s.
Proof.
  revert bs. induction s as [| c rest IH]; intros bs; [constructor |].
  cbn [utf8_encode].
  destruct (utf8_encode_char c) as [cs | e] eqn:Hc; [| discriminate].
  destruct (utf8_encode rest) as [tail | e] eqn:Ht; [| discriminate].
  intros _. constructor; [exact (utf8_encode_char_ok_scalar c cs Hc) |].
  exact (IH tail eq_refl).
Qed.

(** The decoder returns scalar values only. *)
Lemma utf8_decode_scalar bs s :
  utf8_decode bs = Ok s -> Forall scalar_value s.
Proof.
  intros H. apply utf8_encode_decode in H.
  exact (utf8_encode_ok_scalar s bs H).
Qed.

Lemma scalar_value_newline : scalar_value 10.
Proof. left. lia. Qed.

Lemma universal_newlines_scalar s :
  Forall scalar_value s -> Forall scalar_value (universal_newlines s).
Proof.
  intros H. apply Forall_forall. intros c Hc.
  destruct (in_universal_newlines s c Hc) as [Hin | ->].
  - rewrite Forall_forall in H. now apply H.
  - apply scalar_value_newline.
Qed.

Lemma get_schedule_html_inv fs app_dir s :
  get_schedule_html fs app_dir = Ok s ->
  exists content decoded,
    fs (schedule_path app_dir) = Some content
    /\ utf8_decode content = Ok decoded
    /\ s = universal_newlines decoded.
Proof.
  unfold get_schedule_html, read_text.
  destruct (fs (schedule_path app_dir)) as [content |]; [| discriminate].
  destruct (utf8_decode content) as [decoded | e] eqn:Hd; [| discriminate].
  cbn [bind]. intros H. apply Ok_inj in H. subst s.
  now exists content, decoded.
Qed.

(** X12. The text [get_schedule_html] returns never holds a carriage
    return, so translating its newlines once more changes nothing, and it
    is made of Unicode scalar values only (no surrogate). *)
Theorem get_schedule_html_normalised fs app_dir s :
  get_schedule_html fs app_dir = Ok s ->
  ~ In 13 s /\ universal_newlines s = s /\ Forall scalar_value s.
Proof.
  intros H. apply get_schedule_html_inv in H.
  destruct H as (content & decoded & _ & Hdecoded & ->).
  split; [apply universal_newlines_no_cr |].
  split; [apply universal_newlines_id, universal_newlines_no_cr |].
  apply universal_newlines_scalar. exact (utf8_decode_scalar _ _ Hdecoded).
Qed.

Lemma get_schedule_html_normalised_witness :
  get_schedule_html (ScheduleProps.disk "/app" ScheduleProps.crlf_file) "/app"
  = Ok [97; 10; 98]
  /\ ~ In 13 [97; 10; 98]
  /\ universal_newlines [97; 10; 98] = [97; 10; 98]
  /\ Forall scalar_value [97; 10; 98].
Proof.
  split; [reflexivity |].
  apply (get_schedule_html_normalised
           (ScheduleProps.disk "/app" ScheduleProps.crlf_file) "/app").
  reflexivity.
Defined.

(** *** The preview link *)

Lemma build_preview_inv html url :
  _build_preview_data_url html = Ok url ->
  exists utf8,
    utf8_encode html = Ok utf8
    /\ url = data_url_prefix ++ map Byte.to_N (b64encode utf8).
Proof.
  unfold _build_preview_data_url.
  destruct (utf8_encode html) as [utf8 | e]; [| discriminate].
  cbn [bind]. rewrite (ascii_decode_ok _ (b64encode_ascii utf8)).
  cbn [bind]. intros H. apply Ok_inj in H. now exists utf8.
Qed.

Lemma build_preview_raise html e :
  _build_preview_data_url html = Raise e -> utf8_encode html = Raise e.
Proof.
  unfold _build_preview_data_url.
  destruct (utf8_encode html) as [utf8 | e']; [| now intros [= <-]].
  cbn [bind]. rewrite (ascii_decode_ok _ (b64encode_ascii utf8)).
  discriminate.
Qed.

Lemma build_preview_decodes html url :
  _build_preview_data_url html = Ok url ->
  exists utf8,
    utf8_encode html = Ok utf8
    /\ decode_preview_payload url = Ok utf8
    /\ utf8_decode utf8 = Ok html.
Proof.
  intros H. destruct (build_preview_inv html url H) as (utf8 & Hutf8 & ->).
  exists utf8. split; [exact Hutf8 |]. split.
  - unfold decode_preview_payload.
    rewrite ScheduleProps.skipn_data_url_prefix.
    rewrite (ascii_encode_ok _ (b64encode_ascii utf8)). cbn [bind].
    apply b64decode_b64encode.
  - now apply utf8_decode_encode.
Qed.

Lemma build_preview_total html :
  Forall scalar_value html -> exists url, _build_preview_data_url html = Ok url.
Proof.
  intros Hvalid. destruct (utf8_encode_total html Hvalid) as [utf8 Hutf8].
  unfold _build_preview_data_url. rewrite Hutf8. cbn [bind].
  rewrite (ascii_decode_ok _ (b64encode_ascii utf8)). cbn [bind]. eauto.
Qed.

(** X13. [render_schedule_view] fails exactly as [get_schedule_html]
    fails: once the file is read the preview link is always built.  The
    document embedded, the source shown and the download are all the text
    read, and the [href] of the anchor is a link whose payload decodes to
    the UTF-8 bytes of that text. *)
Theorem render_schedule_view_shows fs app_dir :
  (forall html,
      get_schedule_html fs app_dir = Ok html ->
      exists page link utf8,
        render_schedule_view fs app_dir = Ok page
        /\ embedded_html page = html
        /\ source_code page = html
        /\ download_data page = html
        /\ preview_anchor page = anchor_open ++ link ++ anchor_rest
        /\ decode_preview_payload link = Ok utf8
        /\ utf8_decode utf8 = Ok html)
  /\
  (forall e,
      get_schedule_html fs app_dir = Raise e ->
      render_schedule_view fs app_dir = Raise e).
Proof.
  unfold render_schedule_view. split.
  - intros html Hread. rewrite Hread. cbn [bind].
    destruct (build_preview_total html) as (link & Hbuild).
    { apply get_schedule_html_inv in Hread.
      destruct Hread as (content & decoded & _ & Hdecoded & ->).
      apply universal_newlines_scalar.
      exact (utf8_decode_scalar _ _ Hdecoded). }
    destruct (build_preview_decodes html link Hbuild)
      as (utf8 & _ & Hdecode & Hback).
    rewrite Hbuild. cbn [bind].
    eexists. exists link, utf8.
    split; [reflexivity |]. repeat split; assumption.
  - intros e ->. reflexivity.
Qed.

Lemma render_schedule_view_shows_witness :
  exists page link utf8,
    render_schedule_view (ScheduleProps.disk "/app" ScheduleProps.crlf_file)
      "/app" = Ok page
    /\ embedded_html page = [97; 10; 98]
    /\ source_code page = [97; 10; 98]
    /\ download_data page = [97; 10; 98]
    /\ preview_anchor page = anchor_open ++ link ++ anchor_rest
    /\ decode_preview_payload link = Ok utf8
    /\ utf8_decode utf8 = Ok [97; 10; 98].
Proof.
  apply (proj1 (render_schedule_view_shows
                  (ScheduleProps.disk "/app" ScheduleProps.crlf_file) "/app")).
  reflexivity.
Defined.

(** The characters of a preview link: letters, digits and [+ / = : ; ,]. *)
Definition url_char (c : N) : bool :=
  ((65 <=? c) && (c <=? 90)) || ((97 <=? c) && (c <=? 122))
  || ((48 <=? c) && (c <=? 57))
  || (c =? 43) || (c =? 47) || (c =? 61) || (c =? 58) || (c =? 59)
  || (c =? 44).

Lemma url_char_b64_char v : url_char (Byte.to_N (b64_char v)) = true.
Proof.
  unfold b64_char, url_char.
  destruct (N.ltb_spec v 26);
    [| destruct (N.ltb_spec v 52);
       [| destruct (N.ltb_spec v 62); [| destruct (N.eqb_spec v 62)]]];
    rewrite to_N_byte_of_N by lia; decide_comparisons; reflexivity.
Qed.

Lemma url_char_b64encode bs :
  forallb url_char (map Byte.to_N (b64encode bs)) = true.
Proof.
  induction bs as [| b0 | b0 b1 | b0 b1 b2 rest IH] using list_ind3;
    cbn [b64encode map forallb]; rewrite ?url_char_b64_char; try exact IH;
    reflexivity.
Qed.

Lemma until_dquote_app link rest :
  forallb url_char link = true ->
  until_dquote (link ++ dquote ++ rest) = link.
Proof.
  induction link as [| c link IH]; cbn [forallb app until_dquote].
  - reflexivity.
  - intros H. apply andb_true_iff in H. destruct H as [Hc Hlink].
    destruct (N.eqb_spec c 34) as [-> | Hne]; [discriminate Hc |].
    now rewrite IH.
Qed.

Lemma anchor_rest_dquote : exists rest, anchor_rest = dquote ++ rest.
Proof. unfold anchor_rest. eexists. reflexivity. Qed.

(** X14. A preview link is made of ASCII letters, digits and the
    characters [+ / = : ; ,] only.  It holds no double quote, angle
    bracket, ampersand or blank, so inside the anchor it cannot end the
    [href] attribute early: the attribute value read back from the anchor
    is the link itself. *)
Theorem preview_link_stays_in_href html link :
  _build_preview_data_url html = Ok link ->
  forallb url_char link = true
  /\ href_of (anchor_open ++ link ++ anchor_rest) = link.
Proof.
  intros Hbuild.
  destruct (build_preview_inv html link Hbuild) as (utf8 & _ & ->).
  assert (Hchars : forallb url_char
                     (data_url_prefix ++ map Byte.to_N (b64encode utf8))
                   = true).
  { rewrite forallb_app, url_char_b64encode. reflexivity. }
  split; [exact Hchars |].
  destruct anchor_rest_dquote as [rest ->].
  unfold href_of.
  change (skipn (length anchor_open) (anchor_open ++ ?x)) with x.
  now apply until_dquote_app.
Qed.

Lemma preview_link_stays_in_href_witness :
  exists link,
    _build_preview_data_url ScheduleProps.sample_html = Ok link
    /\ forallb url_char link = true
    /\ href_of (anchor_open ++ link ++ anchor_rest) = link.
Proof.
  destruct (build_preview_total ScheduleProps.sample_html
              ScheduleProps.sample_html_scalar) as [link Hlink].
  exists link. split; [exact Hlink |].
  exact (preview_link_stays_in_href ScheduleProps.sample_html link Hlink).
Defined.

(** *** When the link cannot be built *)

Lemma utf8_encode_char_cases c :
  c <= 1114111 ->
  (is_surrogate c = true /\ utf8_encode_char c = Raise UnicodeEncodeError)
  \/ (is_surrogate c = false /\ exists bs, utf8_encode_char c = Ok bs).
Proof.
  intros Hc. unfold utf8_encode_char.
  destruct (is_surrogate c) eqn:Hs.
  - left. split; [reflexivity |]. unfold is_surrogate in Hs.
    apply andb_true_iff in Hs. rewrite !N.leb_le in Hs.
    decide_comparisons. reflexivity.
  - right. split; [reflexivity |]. decide_comparisons; eauto.
Qed.

Lemma utf8_encode_raise_iff s :
  Forall (fun c => c <= 1114111) s ->
  ((exists e, utf8_encode s = Raise e)
   <-> Exists (fun c => is_surrogate c = true) s)
  /\ (forall e, utf8_encode s = Raise e -> e = UnicodeEncodeError).
Proof.
  induction 1 as [| c rest Hc Hrest [IHiff IHe]]; cbn [utf8_encode].
  - split; [| discriminate]. split; [intros [e [=]] | intros H; inversion H].
  - destruct (utf8_encode_char_cases c Hc) as [[Hs ->] | [Hs [bs ->]]];
      cbn [bind].
    + split; [| now intros e [= <-]].
      split; [intros _; now left | intros _; eauto].
    + destruct (utf8_encode rest) as [tail | e'] eqn:Ht; cbn [bind].
      * split; [| discriminate]. split; [intros [e [=]] |].
        intros H. inversion H as [? ? Hhead | ? ? Htail]; subst.
        -- congruence.
        -- apply IHiff in Htail. destruct Htail as [e [=]].
      * split.
        -- split; [intros _; right; apply IHiff; eauto | intros _; eauto].
        -- intros e [= <-]. now apply IHe.
Qed.

(** X15. For text of code points up to U+10FFFF (every Python string)
    [_build_preview_data_url] raises exactly when the text holds a
    surrogate, and what it raises is [UnicodeEncodeError]. *)
Theorem preview_url_raises_iff_surrogate html :
  Forall (fun c => c <= 1114111) html ->
  ((exists e, _build_preview_data_url html = Raise e)
   <-> Exists (fun c => is_surrogate c = true) html)
  /\ (forall e, _build_preview_data_url html = Raise e ->
                e = UnicodeEncodeError).
Proof.
  intros Hpoints.
  destruct (utf8_encode_raise_iff html Hpoints) as [Hiff He]. split.
  - rewrite <- Hiff. split.
    + intros [e H]. exists e. now apply build_preview_raise.
    + intros [e H]. exists e. unfold _build_preview_data_url. now rewrite H.
  - intros e H. apply He. now apply build_preview_raise.
Qed.

Lemma preview_url_raises_iff_surrogate_witness :
  exists e, _build_preview_data_url [60; 56832; 62] = Raise e.
Proof.
  apply (proj1 (preview_url_raises_iff_surrogate [60; 56832; 62]
                  ltac:(repeat constructor; lia))).
  apply Exists_cons_tl, Exists_cons_hd. reflexivity.
Defined.

(** *** Different texts, different links *)

Lemma to_N_inj (a b : byte) : Byte.to_N a = Byte.to_N b -> a = b.
Proof.
  intros H. rewrite <- (byte_of_to_N a), <- (byte_of_to_N b). now rewrite H.
Qed.

Lemma map_to_N_inj (xs ys : list byte) :
  map Byte.to_N xs = map Byte.to_N ys -> xs = ys.
Proof.
  revert ys. induction xs as [| x xs IH]; intros [| y ys]; cbn [map];
    try discriminate; [reflexivity |].
  intros H. injection H as Hx Hxs. f_equal; [now apply to_N_inj | now apply IH].
Qed.

(** X16. [_build_preview_data_url] is injective: two texts with the
    same link are the same text. *)
Theorem preview_url_injective html html' url :
  _build_preview_data_url html = Ok url ->
  _build_preview_data_url html' = Ok url ->
  html = html'.
Proof.
  intros H H'.
  destruct (build_preview_decodes html url H) as (utf8 & _ & Hd & Hback).
  destruct (build_preview_decodes html' url H') as (utf8' & _ & Hd' & Hback').
  rewrite Hd in Hd'. apply Ok_inj in Hd'. subst utf8'.
  rewrite Hback in Hback'. now apply Ok_inj in Hback'.
Qed.

Lemma preview_url_injective_witness :
  exists url,
    _build_preview_data_url ScheduleProps.sample_html = Ok url
    /\ _build_preview_data_url ([60; 233] ++ [8364; 62; 128512]) = Ok url
    /\ ScheduleProps.sample_html = [60; 233] ++ [8364; 62; 128512].
Proof.
  destruct (build_preview_total ScheduleProps.sample_html
              ScheduleProps.sample_html_scalar) as [url Hurl].
  exists url. split; [exact Hurl |]. split; [exact Hurl |].
  exact (preview_url_injective ScheduleProps.sample_html
           ([60; 233] ++ [8364; 62; 128512]) url Hurl Hurl).
Defined.

(** *** The length of the link *)

Lemma length_b64encode bs :
  length (b64encode bs) = (4 * ((length bs + 2) / 3))%nat.
Proof.
  induction bs as [| b0 | b0 b1 | b0 b1 b2 rest IH] using list_ind3;
    cbn [b64encode length]; try reflexivity.
  rewrite IH.
  replace (S (S (S (length rest))) + 2)%nat
    with ((length rest + 2) + 1 * 3)%nat by lia.
  rewrite Nat.div_add by lia. lia.
Qed.

Lemma length_utf8_encode_char c bs :
  utf8_encode_char c = Ok bs -> (1 <= length bs <= 4)%nat.
Proof.
  unfold utf8_encode_char.
  destruct (c <? 128); [intros H; apply Ok_inj in H; subst; simpl; lia |].
  destruct (c <? 2048); [intros H; apply Ok_inj in H; subst; simpl; lia |].
  destruct (c <? 65536).
  - destruct (is_surrogate c); [discriminate |].
    intros H; apply Ok_inj in H; subst; simpl; lia.
  - destruct (c <? 1114112); [| discriminate].
    intros H; apply Ok_inj in H; subst; simpl; lia.
Qed.

Lemma length_utf8_encode s bs :
  utf8_encode s = Ok bs -> (length s <= length bs <= 4 * length s)%nat.
Proof.
  revert bs. induction s as [| c rest IH]; intros bs; cbn [utf8_encode].
  - intros H. apply Ok_inj in H. subst. simpl. lia.
  - destruct (utf8_encode_char c) as [cs | e] eqn:Hc; [| discriminate].
    destruct (utf8_encode rest) as [tail | e] eqn:Ht; [| discriminate].
    cbn [bind]. intros H. apply Ok_inj in H. subst bs.
    apply length_utf8_encode_char in Hc. specialize (IH tail eq_refl).
    rewrite length_app. cbn [length]. lia.
Qed.

(** X17. The link is 22 characters of prefix followed by four characters
    for every three UTF-8 bytes of the text, the last group padded; the
    text has between one and four bytes per code point. *)
Theorem preview_url_length html url :
  _build_preview_data_url html = Ok url ->
  exists utf8,
    utf8_encode html = Ok utf8
    /\ length url = (22 + 4 * ((length utf8 + 2) / 3))%nat
    /\ (length html <= length utf8 <= 4 * length html)%nat.
Proof.
  intros H. destruct (build_preview_inv html url H) as (utf8 & Hutf8 & ->).
  exists utf8. split; [exact Hutf8 |]. split.
  - rewrite length_app, length_map, length_b64encode. reflexivity.
  - now apply length_utf8_encode.
Qed.

Lemma preview_url_length_witness :
  exists url utf8,
    _build_preview_data_url ScheduleProps.sample_html = Ok url
    /\ utf8_encode ScheduleProps.sample_html = Ok utf8
    /\ length url = (22 + 4 * ((length utf8 + 2) / 3))%nat.
Proof.
  destruct (build_preview_total ScheduleProps.sample_html
              ScheduleProps.sample_html_scalar) as [url Hurl].
  destruct (preview_url_length ScheduleProps.sample_html url Hurl)
    as (utf8 & Hutf8 & Hlen & _).
  exists url, utf8. repeat split; assumption.
Defined.

End ScheduleViewProps.

(** ** The value a metric shows *)

Module MetricValueProps.
Import Py Pandas PyFloat Dashboard FormatProps.




End MetricValueProps.
